(** * Agent-framework samples: weather agent, story workflow, query generator workflow

    A shallow embedding of the three sample modules under
    [python/samples/getting_started]:

    - [agents/weather_agent/agent.py]
    - [workflows/story_workflow/workflow.py]
    - [workflows/query_generator_workflow/workflow.py]
    - [workflows/query_generator_workflow/__init__.py]

    Python text is a list of Unicode code points.  Module-level code and the
    functions of the samples run in one monad [Py] over a [World]: the global
    bindings of the module, the objects constructed so far, the log of
    assignment statements, the calls made into the external library, the
    random source and the clock.  The external agent_framework library is not
    part of the samples; its constructors and calls are recorded, not
    executed. *)

From Stdlib Require Import ZArith NArith Ascii String List DecimalString Lia.
From stdpp Require Import base list strings gmap.

Local Open Scope Z_scope.

(** ** Python text *)

Module PyStr.

(** A [str] is a sequence of code points. *)
Abbreviation pystr := (list N).

(** An ASCII literal of the source, as code points. *)
Definition lit (s : string) : pystr :=
  map N_of_ascii (list_ascii_of_string s).

(** Line feed, written [\n] in the source. *)
Definition NL : N := 10%N.

(** U+00B0 DEGREE SIGN. *)
Definition DEGREE : N := 176%N.

(** [s.startswith(prefix)]. *)
Fixpoint startswith (s pre : pystr) : bool :=
  match pre, s with
  | [], _ => true
  | _ :: _, [] => false
  | p :: pre', c :: s' => if N.eqb p c then startswith s' pre' else false
  end.

(** The scan of [s.replace(old, new)] for a non-empty [old]: occurrences are
    taken left to right and do not overlap; [skip] counts the code points of
    the occurrence just replaced that are still to be passed over. *)
Fixpoint replace_from (old new s : pystr) (skip : nat) : pystr :=
  match s with
  | [] => []
  | c :: s' =>
      match skip with
      | S k => replace_from old new s' k
      | O =>
          if startswith s old
          then new ++ replace_from old new s' (length old - 1)
          else c :: replace_from old new s' 0
      end
  end.

(** [s.replace(old, new)].  With an empty [old] Python puts [new] before
    every code point and at the end. *)
Definition str_replace (s old new : pystr) : pystr :=
  match old with
  | [] => new ++ concat (map (fun c => c :: new) s)
  | _ :: _ => replace_from old new s 0
  end.

(** [sep.join(parts)]. *)
Fixpoint str_join (sep : pystr) (parts : list pystr) : pystr :=
  match parts with
  | [] => []
  | [p] => p
  | p :: rest => p ++ sep ++ str_join sep rest
  end.

(** [str(n)] for an [int]. *)
Definition str_of_int (n : Z) : pystr :=
  lit (NilZero.string_of_int (Z.to_int n)).

(** The interpreter's Unicode character database, as far as [str.title]
    reads it.  [lower_ucs4 s i c] is the lower-case mapping of the code
    point [c] found at index [i] of [s] (the mapping of capital sigma
    depends on its neighbours, hence the string and the index). *)
Class UnicodeDB := {
  is_cased : N -> bool;
  to_title_full : N -> pystr;
  lower_ucs4 : pystr -> nat -> N -> pystr
}.

Section Title.
Context {U : UnicodeDB}.

(** The loop of [str.title]: a code point that follows a cased one is
    lower-cased, any other is title-cased. *)
Fixpoint do_title (s rest : pystr) (i : nat) (previous_is_cased : bool)
  : pystr :=
  match rest with
  | [] => []
  | c :: rest' =>
      (if previous_is_cased then lower_ucs4 s i c else to_title_full c)
        ++ do_title s rest' (S i) (is_cased c)
  end.

(** [s.title()]. *)
Definition str_title (s : pystr) : pystr := do_title s s 0 false.
End Title.

(** The database restricted to ASCII: the letters are the cased code
    points; every code point from 128 on is left as it is. *)
Definition ascii_is_upper (c : N) : bool := (65 <=? c)%N && (c <=? 90)%N.
Definition ascii_is_lower (c : N) : bool := (97 <=? c)%N && (c <=? 122)%N.

Definition ascii_db : UnicodeDB := {|
  is_cased c := ascii_is_upper c || ascii_is_lower c;
  to_title_full c := if ascii_is_lower c then [(c - 32)%N] else [c];
  lower_ucs4 _ _ c := if ascii_is_upper c then [(c + 32)%N] else [c]
|}.

End PyStr.
Export PyStr.

(** ** The interpreter state and the [Py] monad *)

(** Objects are referred to by their address in the heap. *)
Abbreviation loc := nat.

(** The two tool functions of the weather agent, as function references. *)
Inductive tool := get_weather_ref | get_time_ref.

(** A [ChatAgent] as the samples configure it.  The instruction prompt is
    opaque text for the external chat client and is not kept. *)
Record ChatAgent := {
  name : pystr;
  description : pystr;
  chat_client : loc;
  tools : list tool
}.

(** Edge declarations of a [WorkflowBuilder], one per builder call. *)
Inductive EdgeGroup :=
| SingleEdge (source target : loc)
| FanOutEdges (source : loc) (targets : list loc)
| FanInEdges (sources : list loc) (target : loc).

Record WorkflowBuilder := {
  start_executor : option loc;
  edge_groups : list EdgeGroup
}.

Record Workflow := {
  wf_start : loc;
  wf_edge_groups : list EdgeGroup
}.

Inductive obj :=
| AzureOpenAIChatClient_obj
| ChatAgent_obj (a : ChatAgent)
| ValidationAggregator_obj (id : pystr)
| Workflow_obj (w : Workflow).

(** A [WorkflowContext] handed to a handler by the runtime. *)
Inductive WorkflowContext := workflow_context (n : nat).

(** [logging.INFO]. *)
Definition logging_INFO : Z := 20.

(** Calls into the external library and the logging module. *)
Inductive event :=
| logging_basicConfig (level : Z) (format : pystr)
| logger_info (msg : pystr)
| serve (entities : list loc) (port : Z) (auto_open : bool)
| send_message_call (ctx : WorkflowContext) (msg : pystr).

Inductive exn :=
| NameError (x : string)
| IndexError
| ValueError.

Inductive result (A : Type) :=
| Ok (a : A)
| Raise (e : exn).
Arguments Ok {A} a.
Arguments Raise {A} e.

Record World := {
  globals : gmap string loc;     (* module-level bindings *)
  heap : list obj;               (* objects, by address *)
  assigned : list string;        (* targets of the assignments run so far *)
  events : list event;           (* calls into the library, in order *)
  entropy : nat -> N;            (* the random source *)
  cursor : nat;                  (* how much of it was consumed *)
  clock : pystr                  (* what strftime gives for the current time *)
}.

Definition Py (A : Type) : Type := World -> result A * World.

#[global] Instance Py_ret : MRet Py := fun A a w => (Ok a, w).

#[global] Instance Py_bind : MBind Py := fun A B f m w =>
  match m w with
  | (Ok a, w') => f a w'
  | (Raise e, w') => (Raise e, w')
  end.

Definition raise {A} (e : exn) : Py A := fun w => (Raise e, w).

(** Evaluating a global name. *)
Definition global (x : string) : Py loc := fun w =>
  match globals w !! x with
  | Some l => (Ok l, w)
  | None => (Raise (NameError x), w)
  end.

(** The four ways a statement changes the world. *)
Definition bind_global (x : string) (l : loc) (w : World) : World :=
  {| globals := <[x := l]> (globals w); heap := heap w;
     assigned := assigned w ++ [x]; events := events w;
     entropy := entropy w; cursor := cursor w; clock := clock w |}.

Definition alloc (o : obj) (w : World) : World :=
  {| globals := globals w; heap := heap w ++ [o];
     assigned := assigned w; events := events w;
     entropy := entropy w; cursor := cursor w; clock := clock w |}.

Definition log (ev : event) (w : World) : World :=
  {| globals := globals w; heap := heap w;
     assigned := assigned w; events := events w ++ [ev];
     entropy := entropy w; cursor := cursor w; clock := clock w |}.

Definition advance (w : World) : World :=
  {| globals := globals w; heap := heap w;
     assigned := assigned w; events := events w;
     entropy := entropy w; cursor := S (cursor w); clock := clock w |}.

(** A module-level assignment [x = <object>]. *)
Definition assign (x : string) (l : loc) : Py unit := fun w =>
  (Ok tt, bind_global x l w).

(** A constructor call that returns: the new object gets the next free
    address.  A constructor of the library can also raise (the chat client
    does when its settings are missing) and the module body then ends
    there; the worlds considered here are those of bodies whose constructor
    calls return. *)
Definition construct (o : obj) : Py loc := fun w =>
  (Ok (length (heap w)), alloc o w).

(** A call into the external library. *)
Definition emit (ev : event) : Py unit := fun w => (Ok tt, log ev w).

(** [random.randint(a, b)]: an integer [n] with [a <= n <= b], drawn from
    the random source; an empty range is a [ValueError].  One element of the
    source stands for the outcome of one call, however many raw numbers the
    generator takes to produce it. *)
Definition randint (a b : Z) : Py Z := fun w =>
  if b <? a then (Raise ValueError, w)
  else (Ok (a + Z.of_N (entropy w (cursor w)) mod (b - a + 1)), advance w).

(** [xs[i]] on a list: a negative index counts from the end, an index out
    of range is an [IndexError]. *)
Definition getitem {A} (xs : list A) (i : Z) : Py A :=
  let j := if i <? 0 then i + Z.of_nat (length xs) else i in
  if j <? 0 then raise IndexError
  else match xs !! Z.to_nat j with
       | Some x => mret x
       | None => raise IndexError
       end.

(** [datetime.now(timezone.utc).strftime(...)], read off the clock. *)
Definition strftime_now : Py pystr := fun w => (Ok (clock w), w).

(** The state a module is loaded in: nothing bound, nothing built. *)
Definition fresh (e : nat -> N) (t : pystr) : World :=
  {| globals := ∅; heap := []; assigned := []; events := [];
     entropy := e; cursor := 0%nat; clock := t |}.

(** ** agents/weather_agent/agent.py *)

Module WeatherAgent.

Definition get_weather (location : pystr) : Py pystr :=
  let conditions := [lit "sunny"; lit "cloudy"; lit "rainy"; lit "stormy"] in
  i ← randint 0 3;
  condition ← getitem conditions i;
  n ← randint 10 30;
  mret (lit "The weather in " ++ location ++ lit " is " ++ condition
          ++ lit " with a high of " ++ str_of_int n ++ [DEGREE] ++ lit "C.").

Definition get_time : Py pystr :=
  current_time ← strftime_now;
  mret (lit "The current UTC time is " ++ current_time ++ lit ".").

(** The module body: the agent is built around a client constructed in
    place. *)
Definition load : Py unit :=
  client ← construct AzureOpenAIChatClient_obj;
  a ← construct (ChatAgent_obj
         {| name := lit "WeatherAgent";
            description :=
              lit "A helpful agent that provides weather information and current time";
            chat_client := client;
            tools := [get_weather_ref; get_time_ref] |});
  assign "agent" a.

End WeatherAgent.

(** ** Builder calls shared by the two workflow modules *)

Definition WorkflowBuilder_new : WorkflowBuilder :=
  {| start_executor := None; edge_groups := [] |}.

Definition set_start_executor (x : loc) (b : WorkflowBuilder) : WorkflowBuilder :=
  {| start_executor := Some x; edge_groups := edge_groups b |}.

Definition add_edge (source target : loc) (b : WorkflowBuilder) : WorkflowBuilder :=
  {| start_executor := start_executor b;
     edge_groups := edge_groups b ++ [SingleEdge source target] |}.

Definition add_fan_out_edges (source : loc) (targets : list loc)
  (b : WorkflowBuilder) : WorkflowBuilder :=
  {| start_executor := start_executor b;
     edge_groups := edge_groups b ++ [FanOutEdges source targets] |}.

Definition add_fan_in_edges (sources : list loc) (target : loc)
  (b : WorkflowBuilder) : WorkflowBuilder :=
  {| start_executor := start_executor b;
     edge_groups := edge_groups b ++ [FanInEdges sources target] |}.

(** [build()] needs a start executor and yields a new workflow object. *)
Definition build (b : WorkflowBuilder) : Py loc :=
  match start_executor b with
  | None => raise ValueError
  | Some s =>
      construct (Workflow_obj {| wf_start := s; wf_edge_groups := edge_groups b |})
  end.

(** [ChatAgent(name=..., description=..., chat_client=chat_client, ...)]
    where [chat_client] is the module's global of that name. *)
Definition new_ChatAgent (nm descr : string) : Py loc :=
  client ← global "chat_client";
  construct (ChatAgent_obj {| name := lit nm; description := lit descr;
                              chat_client := client; tools := [] |}).

(** ** workflows/story_workflow/workflow.py *)

Module StoryWorkflow.

Definition load : Py unit :=
  c ← construct AzureOpenAIChatClient_obj;
  assign "chat_client" c;;
  a ← new_ChatAgent "PlotDesigner"
        "An agent that creates story plots and structures";
  assign "plot_designer" a;;
  a ← new_ChatAgent "CharacterCreator"
        "An agent that develops compelling characters";
  assign "character_creator" a;;
  a ← new_ChatAgent "SceneWriter"
        "An agent that writes engaging story scenes";
  assign "scene_writer" a;;
  a ← new_ChatAgent "StoryPolisher"
        "An agent that adds final polish and improvements";
  assign "story_polisher" a;;
  let b := WorkflowBuilder_new in
  b ← (x ← global "plot_designer"; mret (set_start_executor x b));
  b ← (x ← global "plot_designer"; y ← global "character_creator";
       mret (add_edge x y b));
  b ← (x ← global "character_creator"; y ← global "scene_writer";
       mret (add_edge x y b));
  b ← (x ← global "scene_writer"; y ← global "story_polisher";
       mret (add_edge x y b));
  w ← build b;
  assign "workflow" w.

Definition main : Py unit :=
  emit (logging_basicConfig logging_INFO (lit "%(message)s"));;
  emit (logger_info (lit "Starting Interactive Story Writing Workflow"));;
  emit (logger_info (lit "Available at: http://localhost:8090"));;
  emit (logger_info (lit "Entity ID: workflow_story_writing"));;
  emit (logger_info (NL :: lit "Try prompts like:"));;
  emit (logger_info (lit "  - Write a sci-fi story about time travel"));;
  emit (logger_info (lit "  - Create a mystery story set in a haunted house"));;
  emit (logger_info (lit "  - Make a fantasy story about a dragon rider"));;
  emit (logger_info (lit "  - Write a comedy about a chef's cooking disaster"));;
  w ← global "workflow";
  emit (serve [w] 8090 true).

End StoryWorkflow.

(** ** workflows/query_generator_workflow/workflow.py *)

Module QueryGeneratorWorkflow.

(** What the runtime hands to a fan-in handler for each upstream agent.
    [text] is the property of the agent's run response, already computed
    when the handler runs. *)
Record AgentRunResponse := { text : pystr }.

Record AgentExecutorResponse := {
  executor_id : pystr;
  agent_run_response : AgentRunResponse
}.

(** [ctx.send_message(msg)]. *)
Definition send_message (ctx : WorkflowContext) (msg : pystr) : Py unit :=
  emit (send_message_call ctx msg).

Section Aggregator.
Context {U : UnicodeDB}.

(** One turn of the [for r in results] loop of [aggregate]. *)
Definition aggregate_step (validations : list pystr) (r : AgentExecutorResponse)
  : list pystr :=
  let validator_name :=
    str_title (str_replace (executor_id r) (lit "_") (lit " ")) in
  let text := text (agent_run_response r) in
  validations ++ [lit "**" ++ validator_name ++ lit "**:" ++ [NL] ++ text].

(** The list [validations] when the loop is over. *)
Definition aggregate_loop (results : list AgentExecutorResponse) : list pystr :=
  fold_left aggregate_step results [].

(** The text bound to [summary]. *)
Definition aggregate_summary (results : list AgentExecutorResponse) : pystr :=
  let validations := aggregate_loop results in
  let combined := str_join [NL; NL] validations in
  lit "=== VALIDATION SUMMARY ===" ++ [NL; NL] ++ combined ++ [NL; NL].

(** [ValidationAggregator.aggregate]. *)
Definition aggregate (self : loc) (results : list AgentExecutorResponse)
  (ctx : WorkflowContext) : Py unit :=
  let summary := aggregate_summary results in
  send_message ctx summary.

End Aggregator.

Definition load : Py unit :=
  c ← construct AzureOpenAIChatClient_obj;
  assign "chat_client" c;;
  a ← new_ChatAgent "SchemaParser" "Analyzes database schema structure";
  assign "schema_parser" a;;
  a ← new_ChatAgent "QueryGenerator"
        "Generates SQL query from schema analysis and description";
  assign "query_generator" a;;
  a ← new_ChatAgent "SyntaxChecker" "Validates SQL syntax";
  assign "syntax_checker" a;;
  a ← new_ChatAgent "SchemaValidator" "Validates query matches schema";
  assign "schema_validator" a;;
  a ← new_ChatAgent "PerformanceReviewer" "Reviews query performance";
  assign "performance_reviewer" a;;
  a ← construct (ValidationAggregator_obj (lit "validation_aggregator"));
  assign "validation_aggregator" a;;
  a ← new_ChatAgent "QueryRefiner" "Refines query based on validation feedback";
  assign "query_refiner" a;;
  a ← new_ChatAgent "FinalSQLOutput" "Outputs only the final clean SQL query";
  assign "documentation_generator" a;;
  let b := WorkflowBuilder_new in
  b ← (x ← global "schema_parser"; mret (set_start_executor x b));
  b ← (x ← global "schema_parser"; y ← global "query_generator";
       mret (add_edge x y b));
  b ← (x ← global "query_generator";
       y1 ← global "syntax_checker"; y2 ← global "schema_validator";
       y3 ← global "performance_reviewer";
       mret (add_fan_out_edges x [y1; y2; y3] b));
  b ← (x1 ← global "syntax_checker"; x2 ← global "schema_validator";
       x3 ← global "performance_reviewer";
       y ← global "validation_aggregator";
       mret (add_fan_in_edges [x1; x2; x3] y b));
  b ← (x ← global "validation_aggregator"; y ← global "query_refiner";
       mret (add_edge x y b));
  b ← (x ← global "query_refiner"; y ← global "documentation_generator";
       mret (add_edge x y b));
  w ← build b;
  assign "workflow" w.

Definition main : Py unit :=
  emit (logging_basicConfig logging_INFO (lit "%(message)s"));;
  emit (logger_info (lit "Starting Schema-Based Query Generator Workflow"));;
  emit (logger_info (lit "Available at: http://localhost:8090"));;
  emit (logger_info (NL :: lit "Example input:"));;
  emit (logger_info (lit "Schema:"));;
  emit (logger_info
          (lit "CREATE TABLE users (id INT, name VARCHAR(100), email VARCHAR(100));"));;
  emit (logger_info
          (lit "CREATE TABLE orders (id INT, user_id INT, total DECIMAL(10,2), created_at TIMESTAMP);"));;
  emit (logger_info
          (NL :: lit "Query: Find all users who placed orders over $100 in the last month"));;
  w ← global "workflow";
  emit (serve [w] 8090 true).

End QueryGeneratorWorkflow.

(** ** workflows/query_generator_workflow/__init__.py *)

Module QueryGeneratorPackage.







End QueryGeneratorPackage.

(** ** The handler as the runtime calls it

    [QueryGeneratorWorkflow.aggregate] above takes the responses as records
    and lets [send_message] return.  Here the same lines 160-171 run on
    Python objects, where reading an attribute can fail, a property runs
    the library's getter, and the runtime decides what becomes of a
    message. *)

Module ValidationAggregator.

Inductive pyexn :=
| AttributeError (attr : string)
| LibraryError (what : pystr).    (* an exception raised inside the library *)

Inductive outcome (A : Type) :=
| Returned (a : A)
| Raised (e : pyexn).
Arguments Returned {A} a.
Arguments Raised {A} e.

#[global] Instance outcome_ret : MRet outcome := fun A a => Returned a.

#[global] Instance outcome_bind : MBind outcome := fun A B f m =>
  match m with
  | Returned a => f a
  | Raised e => Raised e
  end.

(** The values the handler meets: text, [None], and objects with data
    attributes and properties.  An object carries the text [str()] gives
    for it; a property carries what its getter does when it is read. *)
Inductive pyval :=
| PStr (s : pystr)
| PNone
| PObject (repr : pystr) (attrs : list (string * getter))
with getter :=
| Attribute (v : pyval)
| Property (r : outcome pyval).

Fixpoint find_attr (x : string) (attrs : list (string * getter))
  : option getter :=
  match attrs with
  | [] => None
  | (y, g) :: rest => if String.eqb x y then Some g else find_attr x rest
  end.

(** [o.x] for a data attribute or a property. *)
Definition getattr (o : pyval) (x : string) : outcome pyval :=
  match o with
  | PObject _ attrs =>
      match find_attr x attrs with
      | Some (Attribute v) => Returned v
      | Some (Property r) => r
      | None => Raised (AttributeError x)
      end
  | PStr _ | PNone => Raised (AttributeError x)
  end.

(** [v.method(...)] for a method of [str]: only text has it. *)
Definition str_method (v : pyval) (method : string) (f : pystr -> pystr)
  : outcome pyval :=
  match v with
  | PStr s => Returned (PStr (f s))
  | PNone | PObject _ _ => Raised (AttributeError method)
  end.

(** A value inside an f-string. *)
Definition format_value (v : pyval) : pystr :=
  match v with
  | PStr s => s
  | PNone => lit "None"
  | PObject repr _ => repr
  end.

(** A workflow context: its handle, and what the runtime does with a
    message sent through it ([None]: it takes the message). *)
Record Context := {
  handle : WorkflowContext;
  send_outcome : pystr -> option pyexn
}.

Section Handler.
Context {U : UnicodeDB}.

(** One turn of the loop, lines 163-165. *)
Definition aggregate_turn (validations : list pystr) (r : pyval)
  : outcome (list pystr) :=
  id ← getattr r "executor_id";
  replaced ← str_method id "replace"
               (fun s => str_replace s (lit "_") (lit " "));
  validator_name ← str_method replaced "title" str_title;
  response ← getattr r "agent_run_response";
  text ← getattr response "text";
  mret (validations
          ++ [lit "**" ++ format_value validator_name ++ lit "**:" ++ [NL]
                ++ format_value text]).

(** The loop: an exception in a turn ends it. *)
Fixpoint aggregate_for (validations : list pystr) (results : list pyval)
  : outcome (list pystr) :=
  match results with
  | [] => Returned validations
  | r :: rest =>
      validations' ← aggregate_turn validations r;
      aggregate_for validations' rest
  end.

(** [ValidationAggregator.aggregate]. *)
Definition aggregate (self : pyval) (results : list pyval) (ctx : Context)
  (w : World) : outcome unit * World :=
  match aggregate_for [] results with
  | Raised e => (Raised e, w)
  | Returned validations =>
      let combined := str_join [NL; NL] validations in
      let summary :=
        lit "=== VALIDATION SUMMARY ===" ++ [NL; NL] ++ combined ++ [NL; NL] in
      match send_outcome ctx summary with
      | None => (Returned tt, log (send_message_call (handle ctx) summary) w)
      | Some e => (Raised e, w)
      end
  end.

End Handler.

(** An [AgentExecutorResponse] object: [executor_id] and
    [agent_run_response] are data attributes, [text] is a property of the
    run response. *)
Definition response_with (id : pystr) (text_getter : outcome pyval) : pyval :=
  PObject (lit "AgentExecutorResponse")
    [("executor_id", Attribute (PStr id));
     ("agent_run_response",
      Attribute (PObject (lit "AgentRunResponse")
                   [("text", Property text_getter)]))].

(** The object of a response whose text is computed. *)
Definition response_obj (r : QueryGeneratorWorkflow.AgentExecutorResponse)
  : pyval :=
  response_with (QueryGeneratorWorkflow.executor_id r)
    (Returned (PStr (QueryGeneratorWorkflow.text
                       (QueryGeneratorWorkflow.agent_run_response r)))).

End ValidationAggregator.

(** ** Vocabulary of the properties *)

(** Underscores replaced by spaces, said directly. *)
Definition underscores_to_spaces (s : pystr) : pystr :=
  map (fun c => if N.eqb c 95 then 32%N else c) s.

(** The entry of one response in the summary: the display name between
    double asterisks, a colon, a line feed, then the response's text. *)
Definition entry {U : UnicodeDB} (r : QueryGeneratorWorkflow.AgentExecutorResponse)
  : pystr :=
  lit "**"
    ++ str_title (underscores_to_spaces (QueryGeneratorWorkflow.executor_id r))
    ++ lit "**:" ++ [NL]
    ++ QueryGeneratorWorkflow.text (QueryGeneratorWorkflow.agent_run_response r).

(** Where the entry of the [i]-th response starts in the summary: after the
    header and its two line feeds, and after each earlier entry with the two
    line feeds that follow it. *)
Definition entry_offset {U : UnicodeDB}
  (results : list QueryGeneratorWorkflow.AgentExecutorResponse) (i : nat) : nat :=
  (length (lit "=== VALIDATION SUMMARY ===") + 2
   + sum_list_with (fun r => length (entry r) + 2) (take i results))%nat.

(** [s[start : start + len]]. *)
Definition slice (s : pystr) (start len : nat) : pystr := take len (drop start s).

(** The agents among the objects of a heap, and the addresses that hold a
    chat client. *)
Definition agents_of (h : list obj) : list ChatAgent :=
  omap (fun o => match o with ChatAgent_obj a => Some a | _ => None end) h.

Definition clients_of (h : list obj) : list loc :=
  omap (fun '(l, o) =>
          match o with AzureOpenAIChatClient_obj => Some l | _ => None end)
       (imap pair h).

(** The [serve] calls among the events. *)
Definition is_serve (e : event) : bool :=
  match e with serve _ _ _ => true | _ => false end.

Definition serve_calls (evs : list event) : list event :=
  List.filter is_serve evs.

(** The messages sent through a workflow context. *)
Definition is_send (e : event) : bool :=
  match e with send_message_call _ _ => true | _ => false end.

Definition sent_messages (evs : list event) : list event :=
  List.filter is_send evs.

(** The object of a given agent name at an address. *)
Definition agent_named (w : World) (l : loc) (nm : string) : Prop :=
  exists a, heap w !! l = Some (ChatAgent_obj a) /\ name a = lit nm.

(** Every declared edge is a plain edge: no fan-out and no fan-in group. *)
Definition single_edges_only (f : Workflow) : Prop :=
  Forall (fun g => match g with SingleEdge _ _ => True | _ => False end)
         (wf_edge_groups f).

(** A computation that leaves bindings and objects as they were: no global
    is bound or rebound, no object is built or changed, no assignment runs. *)
Definition same_objects (w w' : World) : Prop :=
  globals w' = globals w /\ heap w' = heap w /\ assigned w' = assigned w.

Definition preserves_objects {A} (m : Py A) : Prop :=
  forall w, same_objects w (snd (m w)).

(** The world a module body leaves behind when it is run in a fresh
    interpreter. *)
Definition loaded (body : Py unit) (e : nat -> N) (t : pystr) : World :=
  snd (body (fresh e t)).

(** The edges a workflow declares, as source and target pairs. *)
Definition edges_of (f : Workflow) : list (loc * loc) :=
  flat_map (fun g =>
              match g with
              | SingleEdge s t => [(s, t)]
              | FanOutEdges s ts => map (fun t => (s, t)) ts
              | FanInEdges ss t => map (fun s => (s, t)) ss
              end)
           (wf_edge_groups f).


(** The handler on the three validators of the workflow, with the ASCII
    database. *)
Definition sample_results : list QueryGeneratorWorkflow.AgentExecutorResponse :=
  [ {| QueryGeneratorWorkflow.executor_id := lit "syntax_checker";
       QueryGeneratorWorkflow.agent_run_response :=
         {| QueryGeneratorWorkflow.text := lit "Status: VALID" |} |};
    {| QueryGeneratorWorkflow.executor_id := lit "SchemaValidator";
       QueryGeneratorWorkflow.agent_run_response :=
         {| QueryGeneratorWorkflow.text := lit "Mismatches: None" |} |};
    {| QueryGeneratorWorkflow.executor_id := lit "performance_reviewer";
       QueryGeneratorWorkflow.agent_run_response :=
         {| QueryGeneratorWorkflow.text := lit "Performance: GOOD" |} |} ].

Definition sample_world : World := fresh (fun _ => 0%N) [].

(** The same world with another random source. *)
Definition set_entropy (e : nat -> N) (w : World) : World :=
  {| globals := globals w; heap := heap w;
     assigned := assigned w; events := events w;
     entropy := e; cursor := cursor w; clock := clock w |}.

(** A response with the same executor id and another text. *)
Definition with_text (r : QueryGeneratorWorkflow.AgentExecutorResponse)
  (t : pystr) : QueryGeneratorWorkflow.AgentExecutorResponse :=
  {| QueryGeneratorWorkflow.executor_id := QueryGeneratorWorkflow.executor_id r;
     QueryGeneratorWorkflow.agent_run_response :=
       {| QueryGeneratorWorkflow.text := t |} |}.

(** The sentence [get_weather] formats. *)
Definition weather_sentence (location condition : pystr) (n : Z) : pystr :=
  lit "The weather in " ++ location ++ lit " is " ++ condition
    ++ lit " with a high of " ++ str_of_int n ++ [DEGREE] ++ lit "C.".

(** One executor leads to another along declared edges. *)
Inductive leads_to (E : list (loc * loc)) : loc -> loc -> Prop :=
| leads_here (a : loc) : leads_to E a a
| leads_on (a b c : loc) : (a, b) ∈ E -> leads_to E b c -> leads_to E a c.

(** The executors a workflow mentions, the start first. *)
Definition executors_of (f : Workflow) : list loc :=
  remove_dups (wf_start f :: flat_map (fun p => [fst p; snd p]) (edges_of f)).

Definition successors_of (f : Workflow) (x : loc) : list loc :=
  map snd (List.filter (fun p => Nat.eqb (fst p) x) (edges_of f)).

Definition predecessors_of (f : Workflow) (x : loc) : list loc :=
  map fst (List.filter (fun p => Nat.eqb (snd p) x) (edges_of f)).

(** The executors with no outgoing edge. *)
Definition sinks_of (f : Workflow) : list loc :=
  List.filter (fun x => match successors_of f x with [] => true | _ => false end)
              (executors_of f).

(** The addresses of a heap that hold an agent or a custom executor. *)
Definition executor_addresses_of (h : list obj) : list loc :=
  omap (fun '(l, o) =>
          match o with
          | ChatAgent_obj _ | ValidationAggregator_obj _ => Some l
          | _ => None
          end)
       (imap pair h).

(** Whether [b] is found from [a] within [fuel] edges. *)
Fixpoint reaches (E : list (loc * loc)) (fuel : nat) (a b : loc) : bool :=
  if Nat.eqb a b then true
  else match fuel with
       | O => false
       | S k =>
           existsb (fun p => if Nat.eqb (fst p) a then reaches E k (snd p) b
                             else false) E
       end.



(** An assignment to an attribute of an existing object: the object at the
    address is replaced by its changed version.  No statement of the samples
    does this. *)
Definition setattr_obj (l : loc) (o : obj) : Py unit := fun w =>
  (Ok tt,
   {| globals := globals w; heap := <[l := o]> (heap w);
      assigned := assigned w; events := events w;
      entropy := entropy w; cursor := cursor w; clock := clock w |}).

(** A context whose runtime takes every message, and one whose runtime
    refuses them. *)
Definition open_context : ValidationAggregator.Context :=
  {| ValidationAggregator.handle := workflow_context 0;
     ValidationAggregator.send_outcome := fun _ => None |}.




(** * Properties *)

(** ** Text operations *)

Lemma lit_underscore : lit "_" = [95%N].
Proof. reflexivity. Qed.

Lemma lit_space : lit " " = [32%N].
Proof. reflexivity. Qed.

Lemma startswith_nil (s : pystr) : startswith s [] = true.
Proof. by destruct s. Qed.

(** Replacing the one-character text [_] by a space is a map over the code
    points. *)
Lemma str_replace_underscore (s : pystr) :
  str_replace s (lit "_") (lit " ") = underscores_to_spaces s.
Proof.
  rewrite lit_underscore, lit_space. unfold str_replace.
  induction s as [|c s IH]; [reflexivity|].
  cbn [replace_from startswith underscores_to_spaces map length Nat.sub].
  rewrite (N.eqb_sym 95 c), startswith_nil.
  destruct (N.eqb c 95); cbn; f_equal; exact IH.
Qed.

Lemma str_join_cons (sep p : pystr) (q : pystr) (rest : list pystr) :
  str_join sep (p :: q :: rest) = p ++ sep ++ str_join sep (q :: rest).
Proof. reflexivity. Qed.

Example str_replace_samples :
  str_replace (lit "a_b__c") (lit "__") (lit "-") = lit "a_b-c"
  /\ str_replace (lit "aaa") (lit "aa") (lit "b") = lit "ba"
  /\ str_replace (lit "abc") [] (lit "-") = lit "-a-b-c-"
  /\ str_replace (lit "validation_aggregator") (lit "_") (lit " ")
     = lit "validation aggregator".
Proof. by repeat split. Qed.

Example str_title_samples :
  @str_title ascii_db (lit "validation aggregator") = lit "Validation Aggregator"
  /\ @str_title ascii_db (lit "SyntaxChecker") = lit "Syntaxchecker"
  /\ @str_title ascii_db (lit "step 3a: x-ray") = lit "Step 3A: X-Ray"
  /\ @str_title ascii_db [] = [].
Proof. by repeat split. Qed.

Example str_join_samples :
  str_join [NL; NL] [] = []
  /\ str_join [NL; NL] [lit "a"] = lit "a"
  /\ str_join [NL; NL] [lit "a"; lit "b"] = lit "a" ++ [NL; NL] ++ lit "b".
Proof. by repeat split. Qed.

(** A part of a joined text sits between what was joined before it and what
    is joined after it. *)
Lemma str_join_middle (sep : pystr) (l1 : list pystr) (x : pystr) (l2 : list pystr) :
  str_join sep (l1 ++ x :: l2)
  = concat (map (fun p => p ++ sep) l1) ++ x
      ++ match l2 with [] => [] | _ :: _ => sep ++ str_join sep l2 end.
Proof.
  induction l1 as [|p l1 IH].
  - destruct l2; cbn; [by rewrite app_nil_r | reflexivity].
  - cbn [app map concat].
    destruct (l1 ++ x :: l2) as [|q rest] eqn:E.
    + destruct l1; discriminate.
    + rewrite str_join_cons, IH. by rewrite <- !app_assoc.
Qed.

Lemma length_concat_sep (sep : pystr) (l : list pystr) :
  length (concat (map (fun p => p ++ sep) l))
  = sum_list_with (fun p => (length p + length sep)%nat) l.
Proof.
  induction l as [|p l IH]; [reflexivity|].
  cbn. rewrite !length_app, IH. lia.
Qed.

Lemma sum_list_with_map {A B} (g : A -> B) (f : B -> nat) (l : list A) :
  sum_list_with f (map g l) = sum_list_with (fun a => f (g a)) l.
Proof. induction l as [|a l IH]; cbn; [reflexivity | by rewrite IH]. Qed.

(** ** Steps of a run *)

Lemma emit_run (ev : event) (w : World) : emit ev w = (Ok tt, log ev w).
Proof. reflexivity. Qed.

Lemma events_log (ev : event) (w : World) : events (log ev w) = events w ++ [ev].
Proof. reflexivity. Qed.

Lemma globals_log (ev : event) (w : World) : globals (log ev w) = globals w.
Proof. reflexivity. Qed.

Lemma global_run (x : string) (l : loc) (w : World) :
  globals w !! x = Some l -> global x w = (Ok l, w).
Proof. intros H. unfold global. by rewrite H. Qed.

(** ** The validation aggregator *)

Section AggregatorProperties.
Context {U : UnicodeDB}.
Import QueryGeneratorWorkflow.

Lemma aggregate_step_entry (validations : list pystr) (r : AgentExecutorResponse) :
  aggregate_step validations r = validations ++ [entry r].
Proof.
  unfold aggregate_step, entry. by rewrite str_replace_underscore.
Qed.

Lemma aggregate_loop_from (results : list AgentExecutorResponse) (acc : list pystr) :
  fold_left aggregate_step results acc = acc ++ map entry results.
Proof.
  revert acc. induction results as [|r results IH]; intros acc.
  - cbn. by rewrite app_nil_r.
  - cbn [fold_left map]. rewrite IH, aggregate_step_entry.
    by rewrite <- app_assoc.
Qed.

(** The loop leaves in [validations] the entries of the responses, one for
    each and in their order. *)
Lemma aggregate_loop_map (results : list AgentExecutorResponse) :
  aggregate_loop results = map entry results.
Proof. unfold aggregate_loop. by rewrite aggregate_loop_from. Qed.

Lemma aggregate_summary_closed (results : list AgentExecutorResponse) :
  aggregate_summary results
  = lit "=== VALIDATION SUMMARY ===" ++ [NL; NL]
      ++ str_join [NL; NL] (map entry results) ++ [NL; NL].
Proof. unfold aggregate_summary. by rewrite aggregate_loop_map. Qed.

Lemma aggregate_run (self : loc) (results : list AgentExecutorResponse)
  (ctx : WorkflowContext) (w : World) :
  aggregate self results ctx w
  = (Ok tt, snd (aggregate self results ctx w))
  /\ events (snd (aggregate self results ctx w))
     = events w ++ [send_message_call ctx (aggregate_summary results)]
  /\ same_objects w (snd (aggregate self results ctx w)).
Proof. repeat split. Qed.

(** The entry of the response at index [i] is the slice of the summary that
    starts at its offset. *)
Lemma summary_slice (results : list AgentExecutorResponse) (i : nat)
  (r : AgentExecutorResponse) :
  results !! i = Some r ->
  slice (aggregate_summary results) (entry_offset results i) (length (entry r))
  = entry r.
Proof.
  intros Hi. rewrite aggregate_summary_closed.
  rewrite <- (take_drop_middle results i r Hi) at 1.
  rewrite map_app. cbn [map]. rewrite str_join_middle.
  unfold slice, entry_offset.
  set (pre := concat (map (fun p => p ++ [NL; NL]) (map entry (take i results)))).
  set (post := match map entry (drop (S i) results) with
               | [] => [] | _ :: _ => _ end).
  assert (Hlen : (length (lit "=== VALIDATION SUMMARY ===") + 2
                  + sum_list_with (fun r => length (entry r) + 2) (take i results)
                  = length (lit "=== VALIDATION SUMMARY ===" ++ [NL; NL] ++ pre))%nat).
  { rewrite !length_app. subst pre.
    rewrite length_concat_sep, sum_list_with_map. cbn [length]. lia. }
  rewrite Hlen.
  replace (lit "=== VALIDATION SUMMARY ===" ++ [NL; NL]
             ++ (pre ++ entry r ++ post) ++ [NL; NL])
    with ((lit "=== VALIDATION SUMMARY ===" ++ [NL; NL] ++ pre)
            ++ entry r ++ (post ++ [NL; NL]))
    by (by rewrite <- !app_assoc).
  rewrite drop_app_length. by rewrite take_app_length.
Qed.

Lemma entry_offset_succ (results : list AgentExecutorResponse) (i : nat)
  (r : AgentExecutorResponse) :
  results !! i = Some r ->
  entry_offset results (S i)
  = (entry_offset results i + length (entry r) + 2)%nat.
Proof.
  intros Hi. unfold entry_offset.
  rewrite (take_S_r results i r Hi), sum_list_with_app. cbn. lia.
Qed.

Lemma summary_contains_entry (results : list AgentExecutorResponse)
  (r : AgentExecutorResponse) :
  r ∈ results ->
  exists before after, aggregate_summary results = before ++ entry r ++ after.
Proof.
  intros Hr. apply list_elem_of_split in Hr as (l1 & l2 & ->).
  rewrite aggregate_summary_closed, map_app. cbn [map].
  rewrite str_join_middle.
  exists (lit "=== VALIDATION SUMMARY ===" ++ [NL; NL]
            ++ concat (map (fun p => p ++ [NL; NL]) (map entry l1))),
         (match map entry l2 with
          | [] => []
          | _ :: _ => [NL; NL] ++ str_join [NL; NL] (map entry l2)
          end ++ [NL; NL]).
  by rewrite <- !app_assoc.
Qed.

Lemma length_str_join (sep : pystr) (p : pystr) (l : list pystr) :
  (length (str_join sep (p :: l)) + length sep
   = sum_list_with (fun q => length q + length sep) (p :: l))%nat.
Proof.
  revert p. induction l as [|q l IH]; intros p.
  - cbn. lia.
  - rewrite str_join_cons, !length_app.
    change (sum_list_with (fun q0 => length q0 + length sep) (p :: q :: l))%nat
      with (length p + length sep
            + sum_list_with (fun q0 => length q0 + length sep) (q :: l))%nat.
    specialize (IH q). lia.
Qed.

Lemma length_summary (results : list AgentExecutorResponse) :
  length (aggregate_summary results)
  = (entry_offset results (length results)
     + match results with [] => 2 | _ :: _ => 0 end)%nat.
Proof.
  rewrite aggregate_summary_closed. unfold entry_offset.
  rewrite firstn_all, !length_app.
  destruct results as [|r results]; [reflexivity|].
  pose proof (length_str_join [NL; NL] (entry r) (map entry results)) as H.
  change (entry r :: map entry results) with (map entry (r :: results)) in H.
  rewrite sum_list_with_map in H. cbn [length] in *. lia.
Qed.

(** C1. The handler sends one message.  It is the header, two line feeds,
    the entries of the responses joined by two line feeds, and two line
    feeds; so for each response it contains the entry made of the executor
    id, with underscores turned into spaces and title-cased, and then the
    response's text, which is copied as it is. *)
Theorem aggregate_formats_and_concatenates (self : loc)
  (results : list AgentExecutorResponse) (ctx : WorkflowContext) (w : World) :
  exists w',
    aggregate self results ctx w = (Ok tt, w')
    /\ events w'
       = events w
           ++ [send_message_call ctx
                 (lit "=== VALIDATION SUMMARY ===" ++ [NL; NL]
                    ++ str_join [NL; NL] (map entry results) ++ [NL; NL])]
    /\ forall r, r ∈ results ->
         exists before after,
           aggregate_summary results
           = before
               ++ (lit "**"
                     ++ str_title (underscores_to_spaces (executor_id r))
                     ++ lit "**:" ++ [NL] ++ text (agent_run_response r))
               ++ after.
Proof.
  destruct (aggregate_run self results ctx w) as (Hrun & Hev & _).
  eexists. split; [exact Hrun|]. split.
  - by rewrite Hev, aggregate_summary_closed.
  - intros r Hr. exact (summary_contains_entry results r Hr).
Qed.

(** C9. The loop makes one entry for each response, at the same index; in
    the summary the entry of the response at index [i] starts at its offset,
    the next entry starts two code points after its end, and the summary
    ends with the last entry and the closing line feeds. *)
Theorem aggregate_keeps_order_and_multiplicity
  (results : list AgentExecutorResponse) :
  length (aggregate_loop results) = length results
  /\ (forall i, aggregate_loop results !! i = entry <$> results !! i)
  /\ (forall i r, results !! i = Some r ->
        slice (aggregate_summary results) (entry_offset results i)
              (length (entry r)) = entry r
        /\ entry_offset results (S i)
           = (entry_offset results i + length (entry r) + 2)%nat)
  /\ length (aggregate_summary results)
     = (entry_offset results (length results)
        + match results with [] => 2 | _ :: _ => 0 end)%nat.
Proof.
  rewrite aggregate_loop_map. repeat split.
  - apply length_map.
  - intros i. apply list_lookup_fmap.
  - by apply summary_slice.
  - by apply entry_offset_succ.
  - apply length_summary.
Qed.

(** C10. With no result at all the handler still returns normally and sends
    exactly one message: the header followed by four line feeds. *)
Theorem aggregate_empty_sends_bare_header (self : loc) (ctx : WorkflowContext)
  (w : World) :
  exists w',
    aggregate self [] ctx w = (Ok tt, w')
    /\ events w'
       = events w
           ++ [send_message_call ctx
                 (lit "=== VALIDATION SUMMARY ===" ++ [NL; NL; NL; NL])]
    /\ sent_messages (events w')
       = sent_messages (events w)
           ++ [send_message_call ctx
                 (lit "=== VALIDATION SUMMARY ===" ++ [NL; NL; NL; NL])].
Proof.
  exists (log (send_message_call ctx (aggregate_summary [])) w).
  split; [reflexivity|]. split; [reflexivity|].
  rewrite events_log. unfold sent_messages. by rewrite List.filter_app.
Qed.

End AggregatorProperties.

Example sample_summary :
  @QueryGeneratorWorkflow.aggregate_summary ascii_db sample_results
  = lit "=== VALIDATION SUMMARY ===" ++ [NL; NL]
      ++ lit "**Syntax Checker**:" ++ [NL] ++ lit "Status: VALID" ++ [NL; NL]
      ++ lit "**Schemavalidator**:" ++ [NL] ++ lit "Mismatches: None" ++ [NL; NL]
      ++ lit "**Performance Reviewer**:" ++ [NL] ++ lit "Performance: GOOD"
      ++ [NL; NL].
Proof. reflexivity. Qed.

Lemma aggregate_formats_and_concatenates_witness :
  let r := {| QueryGeneratorWorkflow.executor_id := lit "SchemaValidator";
              QueryGeneratorWorkflow.agent_run_response :=
                {| QueryGeneratorWorkflow.text := lit "Mismatches: None" |} |} in
  r ∈ sample_results
  /\ exists before after,
       @QueryGeneratorWorkflow.aggregate_summary ascii_db sample_results
       = before
           ++ (lit "**" ++ @str_title ascii_db (lit "SchemaValidator")
                 ++ lit "**:" ++ [NL] ++ lit "Mismatches: None")
           ++ after.
Proof.
  intros r.
  assert (Hr : r ∈ sample_results)
    by (apply list_elem_of_further, list_elem_of_here).
  split; [exact Hr|].
  destruct (@aggregate_formats_and_concatenates ascii_db 0%nat sample_results
              (workflow_context 0) sample_world) as (w' & _ & _ & H).
  exact (H r Hr).
Defined.

Lemma aggregate_keeps_order_and_multiplicity_witness :
  let r := {| QueryGeneratorWorkflow.executor_id := lit "SchemaValidator";
              QueryGeneratorWorkflow.agent_run_response :=
                {| QueryGeneratorWorkflow.text := lit "Mismatches: None" |} |} in
  sample_results !! 1%nat = Some r
  /\ slice (@QueryGeneratorWorkflow.aggregate_summary ascii_db sample_results)
           (@entry_offset ascii_db sample_results 1)
           (length (@entry ascii_db r))
     = @entry ascii_db r.
Proof.
  intros r. split; [reflexivity|].
  destruct (@aggregate_keeps_order_and_multiplicity ascii_db sample_results)
    as (_ & _ & H & _).
  exact (proj1 (H 1%nat r eq_refl)).
Defined.

(** ** Running [Py] computations *)

Lemma bind_ok {A B} (m : Py A) (f : A -> Py B) (w w' : World) (a : A) :
  m w = (Ok a, w') -> (m ≫= f) w = f a w'.
Proof. intros H. unfold mbind, Py_bind. by rewrite H. Qed.

Lemma same_objects_refl (w : World) : same_objects w w.
Proof. by repeat split. Qed.



Lemma preserves_mret {A} (a : A) : preserves_objects (mret a : Py A).
Proof. intros w. apply same_objects_refl. Qed.

Lemma preserves_raise {A} (x : exn) : preserves_objects (raise x : Py A).
Proof. intros w. apply same_objects_refl. Qed.

Lemma preserves_global (x : string) : preserves_objects (global x).
Proof.
  intros w. unfold global. destruct (globals w !! x); apply same_objects_refl.
Qed.

Lemma preserves_emit (ev : event) : preserves_objects (emit ev).
Proof. intros w. by repeat split. Qed.

Lemma preserves_randint (a b : Z) : preserves_objects (randint a b).
Proof.
  intros w. unfold randint. destruct (b <? a); by repeat split.
Qed.

Lemma preserves_getitem {A} (xs : list A) (i : Z) :
  preserves_objects (getitem xs i).
Proof.
  intros w. unfold getitem.
  destruct (_ <? 0); [apply same_objects_refl|].
  destruct (xs !! _); apply same_objects_refl.
Qed.

Lemma preserves_strftime_now : preserves_objects strftime_now.
Proof. intros w. apply same_objects_refl. Qed.

Create HintDb py discriminated.
#[local] Hint Resolve preserves_mret preserves_raise preserves_global
  preserves_emit preserves_randint preserves_getitem preserves_strftime_now
  : py.


(** An assignment and a constructor call are both seen: neither leaves
    bindings and objects as they were. *)
Example assign_is_seen : ~ preserves_objects (assign "workflow" 0%nat).
Proof.
  intros H. destruct (H sample_world) as (_ & _ & Ha). discriminate Ha.
Qed.

Example construct_is_seen : ~ preserves_objects (construct AzureOpenAIChatClient_obj).
Proof.
  intros H. destruct (H sample_world) as (_ & Hh & _). discriminate Hh.
Qed.

(** [randint] returns within its bounds whenever they are in order. *)
Lemma randint_range (a b : Z) (w : World) :
  a <= b ->
  exists n w', randint a b w = (Ok n, w') /\ a <= n <= b.
Proof.
  intros Hab. unfold randint.
  destruct (Z.ltb_spec b a) as [?|_]; [lia|].
  eexists _, _. split; [reflexivity|].
  pose proof (Z.mod_pos_bound (Z.of_N (entropy w (cursor w))) (b - a + 1)).
  lia.
Qed.

(** Indexing within bounds returns the element at that index. *)
Lemma getitem_in_bounds {A} (xs : list A) (i : Z) (w : World) :
  0 <= i < Z.of_nat (length xs) ->
  exists x, xs !! Z.to_nat i = Some x /\ getitem xs i w = (Ok x, w).
Proof.
  intros Hi. unfold getitem.
  destruct (Z.ltb_spec i 0) as [?|_]; [lia|].
  destruct (Z.ltb_spec i 0) as [?|_]; [lia|].
  destruct (lookup_lt_is_Some_2 xs (Z.to_nat i)) as [x Hx]; [lia|].
  exists x. by rewrite Hx.
Qed.

(** An index past the end is an error, as is one before the start. *)
Example getitem_out_of_range :
  fst (getitem [lit "sunny"; lit "cloudy"] 2 sample_world) = Raise IndexError
  /\ fst (getitem [lit "sunny"; lit "cloudy"] (-3) sample_world) = Raise IndexError
  /\ fst (getitem [lit "sunny"; lit "cloudy"] (-1) sample_world) = Ok (lit "cloudy").
Proof. by repeat split. Qed.

(** The decimal text of the temperatures that can be drawn. *)
Lemma str_of_int_two_digits (n : Z) :
  10 <= n <= 30 ->
  str_of_int n = [Z.to_N (48 + n / 10); Z.to_N (48 + n mod 10)].
Proof.
  intros Hn.
  assert (Hc : forallb (fun k => bool_decide
                          (str_of_int k
                           = [Z.to_N (48 + k / 10); Z.to_N (48 + k mod 10)]))
                       (map (fun k => 10 + Z.of_nat k) (seq 0 21)) = true)
    by (vm_compute; reflexivity).
  rewrite forallb_forall in Hc. eapply bool_decide_eq_true_1, Hc.
  apply in_map_iff. exists (Z.to_nat (n - 10)). split; [lia|].
  apply in_seq. lia.
Qed.

(** ** The weather agent *)

(** C8. Whatever the location and the random source, [get_weather] returns
    the sentence built around the location, one of the four conditions and
    a temperature between 10 and 30; the index drawn for the condition is
    within the list. *)
Theorem get_weather_form (location : pystr) (w : World) :
  exists (i n : Z) (condition : pystr) (w' : World),
    0 <= i <= 3
    /\ [lit "sunny"; lit "cloudy"; lit "rainy"; lit "stormy"] !! Z.to_nat i
       = Some condition
    /\ 10 <= n <= 30
    /\ str_of_int n = [Z.to_N (48 + n / 10); Z.to_N (48 + n mod 10)]
    /\ WeatherAgent.get_weather location w
       = (Ok (lit "The weather in " ++ location ++ lit " is " ++ condition
                ++ lit " with a high of " ++ str_of_int n ++ [DEGREE]
                ++ lit "C."),
          w').
Proof.
  destruct (randint_range 0 3 w) as (i & w1 & Hi & Hir); [lia|].
  destruct (getitem_in_bounds
              [lit "sunny"; lit "cloudy"; lit "rainy"; lit "stormy"] i w1)
    as (condition & Hc & Hget); [cbn; lia|].
  destruct (randint_range 10 30 w1) as (n & w2 & Hn & Hnr); [lia|].
  exists i, n, condition, w2.
  split; [lia|]. split; [exact Hc|]. split; [lia|].
  split; [by apply str_of_int_two_digits|].
  unfold WeatherAgent.get_weather.
  rewrite (bind_ok _ _ _ _ _ Hi), (bind_ok _ _ _ _ _ Hget),
    (bind_ok _ _ _ _ _ Hn).
  reflexivity.
Qed.

Example get_weather_oslo :
  fst (WeatherAgent.get_weather (lit "Oslo") (fresh (fun k => 7%N) []))
  = Ok (lit "The weather in Oslo is stormy with a high of 17" ++ [DEGREE]
          ++ lit "C.").
Proof. reflexivity. Qed.

(** Each of the four conditions and both ends of the temperature range are
    drawn by some random source. *)
Example get_weather_outcomes :
  fst (WeatherAgent.get_weather (lit "Oslo") (fresh (fun k => 0%N) []))
  = Ok (lit "The weather in Oslo is sunny with a high of 10" ++ [DEGREE]
          ++ lit "C.")
  /\ fst (WeatherAgent.get_weather (lit "Oslo") (fresh (fun k => 1%N) []))
     = Ok (lit "The weather in Oslo is cloudy with a high of 11" ++ [DEGREE]
             ++ lit "C.")
  /\ fst (WeatherAgent.get_weather (lit "Oslo") (fresh (fun k => 2%N) []))
     = Ok (lit "The weather in Oslo is rainy with a high of 12" ++ [DEGREE]
             ++ lit "C.")
  /\ fst (WeatherAgent.get_weather (lit "Oslo") (fresh (fun k => 83%N) []))
     = Ok (lit "The weather in Oslo is stormy with a high of 30" ++ [DEGREE]
             ++ lit "C.").
Proof. by repeat split. Qed.

(** ** The declared workflows *)

Ltac by_evaluation := vm_compute; reflexivity.

Ltac agent_is := eexists; split; by_evaluation.

Ltac distinct := compute_done.

(** C2. Loading the query generator module succeeds and leaves under
    [workflow] a workflow that starts at the schema parser and declares, in
    this order: an edge from the schema parser to the query generator, a
    fan-out from the query generator to the syntax checker, the schema
    validator and the performance reviewer, a fan-in from these three to the
    validation aggregator, an edge from the aggregator to the query refiner
    and an edge from the query refiner to the documentation generator.  The
    eight executors are pairwise different objects. *)
Theorem query_workflow_topology (e : nat -> N) (t : pystr) :
  let w := loaded QueryGeneratorWorkflow.load e t in
  fst (QueryGeneratorWorkflow.load (fresh e t)) = Ok tt
  /\ exists sp qg sc sv pr va qr dg wl f,
       (globals w !! "schema_parser" = Some sp
        /\ agent_named w sp "SchemaParser")
       /\ (globals w !! "query_generator" = Some qg
           /\ agent_named w qg "QueryGenerator")
       /\ (globals w !! "syntax_checker" = Some sc
           /\ agent_named w sc "SyntaxChecker")
       /\ (globals w !! "schema_validator" = Some sv
           /\ agent_named w sv "SchemaValidator")
       /\ (globals w !! "performance_reviewer" = Some pr
           /\ agent_named w pr "PerformanceReviewer")
       /\ (globals w !! "validation_aggregator" = Some va
           /\ heap w !! va
              = Some (ValidationAggregator_obj (lit "validation_aggregator")))
       /\ (globals w !! "query_refiner" = Some qr
           /\ agent_named w qr "QueryRefiner")
       /\ (globals w !! "documentation_generator" = Some dg
           /\ agent_named w dg "FinalSQLOutput")
       /\ NoDup [sp; qg; sc; sv; pr; va; qr; dg]
       /\ globals w !! "workflow" = Some wl
       /\ heap w !! wl = Some (Workflow_obj f)
       /\ wf_start f = sp
       /\ wf_edge_groups f
          = [SingleEdge sp qg;
             FanOutEdges qg [sc; sv; pr];
             FanInEdges [sc; sv; pr] va;
             SingleEdge va qr;
             SingleEdge qr dg]
       /\ edges_of f
          = [(sp, qg); (qg, sc); (qg, sv); (qg, pr);
             (sc, va); (sv, va); (pr, va); (va, qr); (qr, dg)].
Proof.
  intros w. split; [by_evaluation|].
  exists 1%nat, 2%nat, 3%nat, 4%nat, 5%nat, 6%nat, 7%nat, 8%nat, 9%nat.
  eexists.
  repeat match goal with
         | |- _ /\ _ => split
         | |- agent_named _ _ _ => agent_is
         | |- NoDup _ => distinct
         | |- _ = _ => by_evaluation
         end.
Qed.

(** C3. Loading the story module succeeds and leaves under [workflow] a
    workflow that starts at the plot designer and declares three plain
    edges, plot designer to character creator to scene writer to story
    polisher, over four pairwise different agents, the only agents of the
    module; no fan-out or fan-in group is declared. *)
Theorem story_workflow_is_linear_chain (e : nat -> N) (t : pystr) :
  let w := loaded StoryWorkflow.load e t in
  fst (StoryWorkflow.load (fresh e t)) = Ok tt
  /\ exists pd cc sw sp wl f,
       (globals w !! "plot_designer" = Some pd
        /\ agent_named w pd "PlotDesigner")
       /\ (globals w !! "character_creator" = Some cc
           /\ agent_named w cc "CharacterCreator")
       /\ (globals w !! "scene_writer" = Some sw
           /\ agent_named w sw "SceneWriter")
       /\ (globals w !! "story_polisher" = Some sp
           /\ agent_named w sp "StoryPolisher")
       /\ NoDup [pd; cc; sw; sp]
       /\ length (agents_of (heap w)) = 4%nat
       /\ globals w !! "workflow" = Some wl
       /\ heap w !! wl = Some (Workflow_obj f)
       /\ wf_start f = pd
       /\ wf_edge_groups f
          = [SingleEdge pd cc; SingleEdge cc sw; SingleEdge sw sp]
       /\ single_edges_only f
       /\ edges_of f = [(pd, cc); (cc, sw); (sw, sp)].
Proof.
  intros w. split; [by_evaluation|].
  exists 1%nat, 2%nat, 3%nat, 4%nat, 5%nat. eexists.
  repeat match goal with
         | |- _ /\ _ => split
         | |- agent_named _ _ _ => agent_is
         | |- NoDup _ => distinct
         | |- single_edges_only _ => repeat constructor
         | |- _ = _ => by_evaluation
         end.
Qed.

(** ** Chat clients *)

(** C4. In each module that declares agents, loading builds exactly one
    chat client, and every agent of the module holds that client. *)
Theorem agents_share_one_chat_client (e : nat -> N) (t : pystr) :
  Forall (fun '(body, count) =>
            let w := loaded body e t in
            fst (body (fresh e t)) = Ok tt
            /\ length (agents_of (heap w)) = count
            /\ exists c,
                 clients_of (heap w) = [c]
                 /\ heap w !! c = Some AzureOpenAIChatClient_obj
                 /\ Forall (fun a => chat_client a = c) (agents_of (heap w)))
         [(WeatherAgent.load, 1%nat);
          (StoryWorkflow.load, 4%nat);
          (QueryGeneratorWorkflow.load, 7%nat)].
Proof.
  repeat apply List.Forall_cons; try apply List.Forall_nil; cbv beta iota zeta;
    (split; [by_evaluation|]); (split; [by_evaluation|]);
    exists 0%nat; (split; [by_evaluation|]); (split; [by_evaluation|]);
    vm_compute; repeat constructor.
Qed.

(** ** Launching the server *)

Lemma serve_calls_snoc (evs : list event) (ev : event) :
  serve_calls (evs ++ [ev])
  = serve_calls evs ++ (if is_serve ev then [ev] else []).
Proof. unfold serve_calls. by rewrite List.filter_app. Qed.

(** What a [main] does, said once for both: it logs, then looks up
    [workflow] and serves it. *)
Lemma main_run (main : Py unit) (w : World) (wl : loc) :
  main = StoryWorkflow.main \/ main = QueryGeneratorWorkflow.main ->
  globals w !! "workflow" = Some wl ->
  fst (main w) = Ok tt
  /\ serve_calls (events (snd (main w)))
     = serve_calls (events w) ++ [serve [wl] 8090 true]
  /\ last (events (snd (main w))) = Some (serve [wl] 8090 true).
Proof.
  intros [-> | ->] Hwl;
    unfold StoryWorkflow.main, QueryGeneratorWorkflow.main;
    rewrite !(bind_ok _ _ _ _ _ (emit_run _ _));
    (erewrite bind_ok; [|apply global_run; rewrite !globals_log; exact Hwl]);
    rewrite emit_run; cbn [fst snd]; rewrite !events_log;
    (split; [reflexivity|]); split.
  all: try (rewrite !serve_calls_snoc; cbn [is_serve];
            by rewrite !app_nil_r).
  all: by rewrite last_snoc.
Qed.

(** C5. For each workflow module: loading it makes no call into the
    library and binds [workflow] to the workflow it built; and in a world
    where [workflow] is bound, as it is from then on, [main] returns
    normally after a single [serve] call, its last call, whose entities are
    the object bound to [workflow] and nothing else, on port 8090 with
    [auto_open] set. *)
Theorem main_serves_the_workflow :
  Forall (fun '(body, main) =>
            (forall (e : nat -> N) (t : pystr),
                fst (body (fresh e t)) = Ok tt
                /\ events (loaded body e t) = []
                /\ exists wl f,
                     globals (loaded body e t) !! "workflow" = Some wl
                     /\ heap (loaded body e t) !! wl = Some (Workflow_obj f))
            /\ (forall (w : World) (wl : loc),
                   globals w !! "workflow" = Some wl ->
                   fst (main w) = Ok tt
                   /\ serve_calls (events (snd (main w)))
                      = serve_calls (events w) ++ [serve [wl] 8090 true]
                   /\ last (events (snd (main w)))
                      = Some (serve [wl] 8090 true)))
         [(StoryWorkflow.load, StoryWorkflow.main);
          (QueryGeneratorWorkflow.load, QueryGeneratorWorkflow.main)].
Proof.
  repeat apply List.Forall_cons; try apply List.Forall_nil;
    cbv beta iota zeta; split.
  - intros e t. (split; [by_evaluation|]); (split; [by_evaluation|]).
    exists 5%nat. eexists. split; by_evaluation.
  - intros w wl Hwl. apply main_run; [by left | exact Hwl].
  - intros e t. (split; [by_evaluation|]); (split; [by_evaluation|]).
    exists 9%nat. eexists. split; by_evaluation.
  - intros w wl Hwl. apply main_run; [by right | exact Hwl].
Qed.

Lemma main_serves_the_workflow_witness :
  let w := loaded StoryWorkflow.load (fun _ => 0%N) [] in
  globals w !! "workflow" = Some 5%nat
  /\ fst (StoryWorkflow.main w) = Ok tt
  /\ serve_calls (events (snd (StoryWorkflow.main w)))
     = serve_calls (events w) ++ [serve [5%nat] 8090 true].
Proof.
  intros w.
  assert (Hw : globals w !! "workflow" = Some 5%nat) by (vm_compute; reflexivity).
  split; [exact Hw|].
  pose proof (Forall_inv main_serves_the_workflow) as H.
  cbv beta iota zeta in H.
  destruct (proj2 H w 5%nat Hw) as (H1 & H2 & _).
  split; [exact H1 | exact H2].
Defined.

(** ** Bindings and objects over the life of the process *)







(** A change of an existing object is seen as well. *)
Example setattr_is_seen :
  ~ preserves_objects (setattr_obj 0%nat (ValidationAggregator_obj [])).
Proof.
  intros H.
  destruct (H (alloc AzureOpenAIChatClient_obj sample_world)) as (_ & Hh & _).
  discriminate Hh.
Qed.





(** ** The handler on Python objects *)

Section HandlerProperties.
Context {U : UnicodeDB}.
Import ValidationAggregator.





End HandlerProperties.


(** With a runtime that takes the message, the handler on objects does
    what the handler on records does. *)
Example aggregate_on_objects_agrees :
  @ValidationAggregator.aggregate ascii_db ValidationAggregator.PNone
    (map ValidationAggregator.response_obj sample_results)
    open_context sample_world
  = (ValidationAggregator.Returned tt,
     snd (@QueryGeneratorWorkflow.aggregate ascii_db 0%nat sample_results
            (workflow_context 0) sample_world)).
Proof. reflexivity. Qed.

(** Text and [None] have no [executor_id]. *)
Example aggregate_on_other_values :
  fst (@ValidationAggregator.aggregate ascii_db ValidationAggregator.PNone
         [ValidationAggregator.PStr (lit "syntax_checker")]
         open_context sample_world)
  = ValidationAggregator.Raised (ValidationAggregator.AttributeError "executor_id").
Proof. reflexivity. Qed.

(** * Further properties of the samples *)

(** ** The weather tools *)

Lemma randint_run (a b : Z) (w : World) :
  a <= b ->
  randint a b w
  = (Ok (a + Z.of_N (entropy w (cursor w)) mod (b - a + 1)), advance w).
Proof.
  intros Hab. unfold randint.
  destruct (Z.ltb_spec b a) as [?|_]; [lia | reflexivity].
Qed.

(** What a call of [get_weather] comes to: the first draw picks the
    condition, the second the temperature. *)
Lemma get_weather_run (location : pystr) (w : World) :
  exists condition,
    [lit "sunny"; lit "cloudy"; lit "rainy"; lit "stormy"]
      !! Z.to_nat (Z.of_N (entropy w (cursor w)) mod 4) = Some condition
    /\ WeatherAgent.get_weather location w
       = (Ok (weather_sentence location condition
                (10 + Z.of_N (entropy w (S (cursor w))) mod 21)),
          advance (advance w)).
Proof.
  pose proof (Z.mod_pos_bound (Z.of_N (entropy w (cursor w))) 4 ltac:(lia))
    as Hi.
  destruct (getitem_in_bounds
              [lit "sunny"; lit "cloudy"; lit "rainy"; lit "stormy"]
              (0 + Z.of_N (entropy w (cursor w)) mod (3 - 0 + 1)) (advance w))
    as (condition & Hc & Hget);
    [change (3 - 0 + 1) with 4; cbn [length]; lia|].
  exists condition. split; [exact Hc|].
  unfold WeatherAgent.get_weather.
  rewrite (bind_ok _ _ _ _ _ (randint_run 0 3 w ltac:(lia))).
  rewrite (bind_ok _ _ _ _ _ Hget).
  rewrite (bind_ok _ _ _ _ _ (randint_run 10 30 (advance w) ltac:(lia))).
  reflexivity.
Qed.

(** X1. [get_weather] calls [randint] twice, and in this order: the
    outcome of the first call, [randint(0, 3)], alone picks the condition,
    and the outcome of the second, [randint(10, 30)], alone is the
    temperature of the reply. *)
Theorem get_weather_draws_condition_then_temperature (location : pystr)
  (w : World) :
  exists condition,
    [lit "sunny"; lit "cloudy"; lit "rainy"; lit "stormy"]
      !! Z.to_nat (Z.of_N (entropy w (cursor w)) mod 4) = Some condition
    /\ WeatherAgent.get_weather location w
       = (Ok (weather_sentence location condition
                (10 + Z.of_N (entropy w (S (cursor w))) mod 21)),
          advance (advance w)).
Proof. exact (get_weather_run location w). Qed.

(** Drawing the temperature first would give another reply. *)
Example get_weather_order_matters :
  fst (WeatherAgent.get_weather (lit "Oslo")
         (fresh (fun k => match k with O => 1%N | _ => 2%N end) []))
  = Ok (weather_sentence (lit "Oslo") (lit "cloudy") 12)
  /\ weather_sentence (lit "Oslo") (lit "cloudy") 12
     <> weather_sentence (lit "Oslo") (lit "rainy") 11.
Proof. split; [reflexivity | discriminate]. Qed.

(** X2. Every outcome the sentence allows is produced: for each of the
    four conditions and each temperature from 10 to 30 there is a random
    source under which [get_weather] returns the sentence with exactly that
    condition and that temperature. *)
Theorem get_weather_reaches_every_outcome (location : pystr) (w : World)
  (i : nat) (condition : pystr) (n : Z) :
  [lit "sunny"; lit "cloudy"; lit "rainy"; lit "stormy"] !! i = Some condition ->
  10 <= n <= 30 ->
  exists e,
    fst (WeatherAgent.get_weather location (set_entropy e w))
    = Ok (weather_sentence location condition n).
Proof.
  intros Hc Hn.
  assert (Hi : (i < 4)%nat) by (apply lookup_lt_Some in Hc; exact Hc).
  exists (fun k => if Nat.eqb k (cursor w) then N.of_nat i else Z.to_N (n - 10)).
  destruct (get_weather_run location
              (set_entropy (fun k => if Nat.eqb k (cursor w) then N.of_nat i
                                     else Z.to_N (n - 10)) w))
    as (c & Hc' & ->).
  cbn [entropy cursor set_entropy fst] in *.
  rewrite Nat.eqb_refl in Hc'.
  replace (Nat.eqb (S (cursor w)) (cursor w)) with false
    by (symmetry; apply Nat.eqb_neq; lia).
  replace (Z.to_nat (Z.of_N (N.of_nat i) mod 4)) with i in Hc'
    by (rewrite Z.mod_small; lia).
  replace (10 + Z.of_N (Z.to_N (n - 10)) mod 21) with n
    by (rewrite Z.mod_small; lia).
  congruence.
Qed.

Lemma get_weather_reaches_every_outcome_witness :
  [lit "sunny"; lit "cloudy"; lit "rainy"; lit "stormy"] !! 2%nat
  = Some (lit "rainy")
  /\ 10 <= 24 <= 30
  /\ exists e,
       fst (WeatherAgent.get_weather (lit "Oslo") (set_entropy e sample_world))
       = Ok (weather_sentence (lit "Oslo") (lit "rainy") 24).
Proof.
  split; [reflexivity|]. split; [lia|].
  apply (get_weather_reaches_every_outcome (lit "Oslo") sample_world 2
           (lit "rainy") 24); [reflexivity | lia].
Defined.

(** X3. The reply of [get_weather] carries the location as it was given,
    right after the first fifteen code points; so under the same draws two
    different locations never get the same reply. *)
Theorem get_weather_carries_location (location location' : pystr) (w : World) :
  location <> location' ->
  (exists msg, fst (WeatherAgent.get_weather location w) = Ok msg
               /\ slice msg 15 (length location) = location)
  /\ fst (WeatherAgent.get_weather location w)
     <> fst (WeatherAgent.get_weather location' w).
Proof.
  intros Hne.
  destruct (get_weather_run location w) as (c & Hc & E).
  destruct (get_weather_run location' w) as (c' & Hc' & E').
  rewrite E, E'. cbn [fst]. split.
  - eexists. split; [reflexivity|].
    unfold slice, weather_sentence.
    change 15%nat with (length (lit "The weather in ")).
    by rewrite drop_app_length, take_app_length.
  - intros H. apply Hne.
    assert (c' = c) by congruence. subst c'.
    set (n := 10 + Z.of_N (entropy w (S (cursor w))) mod 21) in *.
    assert (Hs : weather_sentence location c n = weather_sentence location' c n)
      by congruence.
    unfold weather_sentence in Hs.
    apply (app_inv_head (lit "The weather in ")) in Hs.
    by apply app_inv_tail in Hs.
Qed.

Lemma get_weather_carries_location_witness :
  lit "Oslo" <> lit "Rome"
  /\ fst (WeatherAgent.get_weather (lit "Oslo") sample_world)
     <> fst (WeatherAgent.get_weather (lit "Rome") sample_world).
Proof.
  assert (H : lit "Oslo" <> lit "Rome") by discriminate.
  split; [exact H|].
  exact (proj2 (get_weather_carries_location (lit "Oslo") (lit "Rome")
                  sample_world H)).
Defined.

(** X4. The reply of [get_time] is the words "The current UTC time is ",
    the formatted clock text as it is, and a full stop; the world is left
    as it was.  So the clock text can be read back from the reply, and two
    different clock texts never give the same reply. *)
Theorem get_time_reply (w w' : World) :
  clock w <> clock w' ->
  WeatherAgent.get_time w
  = (Ok (lit "The current UTC time is " ++ clock w ++ lit "."), w)
  /\ (exists msg, fst (WeatherAgent.get_time w) = Ok msg
                  /\ slice msg 24 (length (clock w)) = clock w)
  /\ fst (WeatherAgent.get_time w) <> fst (WeatherAgent.get_time w').
Proof.
  intros Hne. split; [reflexivity|]. split.
  - eexists. split; [reflexivity|].
    unfold slice. change 24%nat with (length (lit "The current UTC time is ")).
    by rewrite drop_app_length, take_app_length.
  - intros H. apply Hne.
    assert (Hs : lit "The current UTC time is " ++ clock w ++ lit "."
                 = lit "The current UTC time is " ++ clock w' ++ lit ".")
      by (change (Ok (lit "The current UTC time is " ++ clock w ++ lit ".")
                  = Ok (lit "The current UTC time is " ++ clock w' ++ lit "."))
            in H; congruence).
    apply (app_inv_head (lit "The current UTC time is ")) in Hs.
    by apply app_inv_tail in Hs.
Qed.

Lemma get_time_reply_witness :
  clock (fresh (fun _ => 0%N) (lit "2026-11-04 10:36:00"))
  <> clock (fresh (fun _ => 0%N) (lit "2026-11-04 10:36:01"))
  /\ fst (WeatherAgent.get_time (fresh (fun _ => 0%N) (lit "2026-11-04 10:36:00")))
     <> fst (WeatherAgent.get_time
               (fresh (fun _ => 0%N) (lit "2026-11-04 10:36:01"))).
Proof.
  assert (H : clock (fresh (fun _ => 0%N) (lit "2026-11-04 10:36:00"))
              <> clock (fresh (fun _ => 0%N) (lit "2026-11-04 10:36:01")))
    by discriminate.
  split; [exact H|].
  exact (proj2 (proj2 (get_time_reply _ _ H))).
Defined.

(** ** The summary as a text *)

Lemma str_join_head (sep p : pystr) (l : list pystr) :
  str_join sep (p :: l)
  = p ++ match l with [] => [] | _ :: _ => sep ++ str_join sep l end.
Proof. destruct l; cbn; [by rewrite app_nil_r | reflexivity]. Qed.

Lemma str_join_app (sep : pystr) (l1 l2 : list pystr) :
  l1 <> [] -> l2 <> [] ->
  str_join sep (l1 ++ l2) = str_join sep l1 ++ sep ++ str_join sep l2.
Proof.
  intros H1 H2. destruct l2 as [|q l2]; [done|].
  induction l1 as [|p l1 IH]; [done|].
  destruct l1 as [|p' l1].
  - reflexivity.
  - change ((p :: p' :: l1) ++ q :: l2) with (p :: p' :: (l1 ++ q :: l2)).
    rewrite !str_join_cons.
    change (p' :: l1 ++ q :: l2) with ((p' :: l1) ++ q :: l2).
    rewrite IH by done. by rewrite <- !app_assoc.
Qed.

Section SummaryText.
Context {U : UnicodeDB}.
Import QueryGeneratorWorkflow.

Lemma entry_with_text (r : AgentExecutorResponse) (t : pystr) :
  entry (with_text r t)
  = lit "**" ++ str_title (underscores_to_spaces (executor_id r))
      ++ lit "**:" ++ [NL] ++ t.
Proof. reflexivity. Qed.

Lemma entry_starts_with_asterisks (r : AgentExecutorResponse) :
  exists rest, entry r = 42%N :: 42%N :: rest.
Proof. eexists. reflexivity. Qed.

(** X5. Summaries grow at the end: when more responses follow a non-empty
    list, the summary of the longer list is the summary of the shorter one,
    closing line feeds included, followed by the joined entries of the new
    responses and two line feeds.  The summary of no response at all is the
    exception: it is never the beginning of a summary with entries. *)
Theorem summary_extends (rs rs' : list AgentExecutorResponse) :
  rs <> [] -> rs' <> [] ->
  aggregate_summary (rs ++ rs')
  = aggregate_summary rs ++ str_join [NL; NL] (map entry rs') ++ [NL; NL]
  /\ aggregate_summary rs `prefix_of` aggregate_summary (rs ++ rs')
  /\ ~ aggregate_summary [] `prefix_of` aggregate_summary rs'.
Proof.
  intros Hrs Hrs'.
  assert (E : aggregate_summary (rs ++ rs')
              = aggregate_summary rs
                  ++ str_join [NL; NL] (map entry rs') ++ [NL; NL]).
  { rewrite !aggregate_summary_closed, map_app.
    rewrite str_join_app by (by destruct rs + destruct rs').
    by rewrite <- !app_assoc. }
  split; [exact E|]. split; [rewrite E; by eexists|].
  destruct rs' as [|r rs']; [done|].
  rewrite !aggregate_summary_closed. cbn [map].
  rewrite str_join_head.
  destruct (entry_starts_with_asterisks r) as (rest & ->).
  intros Hp. apply prefix_app_inv in Hp.
  destruct Hp as (k & Hk). cbn in Hk. discriminate Hk.
Qed.

(** X6. The summary does not tell where one response ends and the next
    begins: a response followed by further ones gives the same summary as
    that response alone with the line feeds and the entries of the others
    appended to its text. *)
Theorem summary_does_not_delimit_entries (r : AgentExecutorResponse)
  (rs : list AgentExecutorResponse) :
  rs <> [] ->
  let merged :=
    with_text r (text (agent_run_response r) ++ [NL; NL]
                   ++ str_join [NL; NL] (map entry rs)) in
  aggregate_summary (r :: rs) = aggregate_summary [merged]
  /\ r :: rs <> [merged].
Proof.
  intros Hrs merged. split.
  - rewrite !aggregate_summary_closed. cbn [map].
    rewrite (str_join_head _ (entry r)). subst merged.
    destruct rs as [|r' rs]; [done|].
    cbn [str_join map]. rewrite entry_with_text. unfold entry.
    by rewrite <- !app_assoc.
  - destruct rs; [done | discriminate].
Qed.

Lemma underscores_to_spaces_clean (s : pystr) :
  95%N ∉ underscores_to_spaces s.
Proof.
  induction s as [|c s IH]; cbn; [apply not_elem_of_nil|].
  apply not_elem_of_cons. split; [|exact IH].
  destruct (N.eqb_spec c 95); [discriminate | congruence].
Qed.

Lemma do_title_clean (s rest : pystr) (i : nat) (b : bool) :
  (forall c, c <> 95%N -> 95%N ∉ to_title_full c) ->
  (forall s i c, c <> 95%N -> 95%N ∉ lower_ucs4 s i c) ->
  95%N ∉ rest ->
  95%N ∉ do_title s rest i b.
Proof.
  intros Ht Hl. revert i b.
  induction rest as [|c rest IH]; intros i b Hrest; [apply not_elem_of_nil|].
  apply not_elem_of_cons in Hrest as [Hc Hrest].
  cbn [do_title]. rewrite elem_of_app. intros [H|H].
  - destruct b; [by apply (Hl s i c) | by apply (Ht c)].
  - by apply (IH (S i) (is_cased c)).
Qed.

(** X7. No underscore reaches the displayed name: provided the case
    mappings of the character database never produce an underscore from
    another code point, the name the handler puts in an entry contains
    none, whatever the executor id. *)
Theorem validator_name_has_no_underscore (r : AgentExecutorResponse) :
  (forall c, c <> 95%N -> 95%N ∉ to_title_full c) ->
  (forall s i c, c <> 95%N -> 95%N ∉ lower_ucs4 s i c) ->
  95%N ∉ str_title (str_replace (executor_id r) (lit "_") (lit " ")).
Proof.
  intros Ht Hl. rewrite str_replace_underscore.
  apply do_title_clean; [exact Ht | exact Hl |].
  apply underscores_to_spaces_clean.
Qed.

End SummaryText.

Lemma summary_extends_witness :
  take 1 sample_results <> [] /\ drop 1 sample_results <> []
  /\ @QueryGeneratorWorkflow.aggregate_summary ascii_db
       (take 1 sample_results ++ drop 1 sample_results)
     = @QueryGeneratorWorkflow.aggregate_summary ascii_db (take 1 sample_results)
         ++ str_join [NL; NL] (map (@entry ascii_db) (drop 1 sample_results))
         ++ [NL; NL].
Proof.
  assert (H1 : take 1 sample_results <> []) by discriminate.
  assert (H2 : drop 1 sample_results <> []) by discriminate.
  split; [exact H1|]. split; [exact H2|].
  exact (proj1 (@summary_extends ascii_db (take 1 sample_results)
                  (drop 1 sample_results) H1 H2)).
Defined.

Lemma summary_does_not_delimit_entries_witness :
  drop 1 sample_results <> []
  /\ @QueryGeneratorWorkflow.aggregate_summary ascii_db sample_results
     = @QueryGeneratorWorkflow.aggregate_summary ascii_db
         [with_text
            {| QueryGeneratorWorkflow.executor_id := lit "syntax_checker";
               QueryGeneratorWorkflow.agent_run_response :=
                 {| QueryGeneratorWorkflow.text := lit "Status: VALID" |} |}
            (lit "Status: VALID" ++ [NL; NL]
               ++ str_join [NL; NL]
                    (map (@entry ascii_db) (drop 1 sample_results)))].
Proof.
  assert (H : drop 1 sample_results <> []) by discriminate.
  split; [exact H|].
  exact (proj1 (@summary_does_not_delimit_entries ascii_db
                  {| QueryGeneratorWorkflow.executor_id := lit "syntax_checker";
                     QueryGeneratorWorkflow.agent_run_response :=
                       {| QueryGeneratorWorkflow.text := lit "Status: VALID" |} |}
                  (drop 1 sample_results) H)).
Defined.

Lemma ascii_db_to_title_clean (c : N) :
  c <> 95%N -> 95%N ∉ @to_title_full ascii_db c.
Proof.
  intros Hc. cbn. unfold ascii_is_lower.
  destruct (N.leb_spec 97 c), (N.leb_spec c 122); cbn;
    rewrite list_elem_of_singleton; lia.
Qed.

Lemma ascii_db_lower_clean (s : pystr) (i : nat) (c : N) :
  c <> 95%N -> 95%N ∉ @lower_ucs4 ascii_db s i c.
Proof.
  intros Hc. cbn. unfold ascii_is_upper.
  destruct (N.leb_spec 65 c), (N.leb_spec c 90); cbn;
    rewrite list_elem_of_singleton; lia.
Qed.

Lemma validator_name_has_no_underscore_witness :
  95%N ∉ @str_title ascii_db
           (str_replace (lit "performance_reviewer") (lit "_") (lit " ")).
Proof.
  exact (@validator_name_has_no_underscore ascii_db
           {| QueryGeneratorWorkflow.executor_id := lit "performance_reviewer";
              QueryGeneratorWorkflow.agent_run_response :=
                {| QueryGeneratorWorkflow.text := lit "Performance: GOOD" |} |}
           ascii_db_to_title_clean ascii_db_lower_clean).
Defined.

(** ** Loading a module in any world *)
























(** ** The declared graphs *)

Lemma reaches_sound (E : list (loc * loc)) (fuel : nat) (a b : loc) :
  reaches E fuel a b = true -> leads_to E a b.
Proof.
  revert a. induction fuel as [|k IH]; intros a; cbn [reaches];
    destruct (Nat.eqb_spec a b) as [->|_]; try (intros _; apply leads_here);
    [discriminate|].
  intros H. apply existsb_exists in H as ([s t] & Hin & H). cbn [fst snd] in H.
  destruct (Nat.eqb_spec s a) as [->|_]; [|discriminate].
  apply leads_on with t; [by apply list_elem_of_In | by apply IH].
Qed.

(** Along edges that all go from a lower to a higher address, one only
    moves up. *)
Lemma leads_to_le (E : list (loc * loc)) (a b : loc) :
  Forall (fun p => (fst p < snd p)%nat) E -> leads_to E a b -> (a <= b)%nat.
Proof.
  intros HE H. induction H as [a | a b c Hab _ IH]; [lia|].
  rewrite Forall_forall in HE. specialize (HE _ Hab). cbn in HE. lia.
Qed.

Lemma increasing_acyclic (E : list (loc * loc)) :
  Forall (fun p => (fst p < snd p)%nat) E ->
  Forall (fun p => ~ leads_to E (snd p) (fst p)) E.
Proof.
  intros HE. apply Forall_forall. intros p Hp H.
  apply (leads_to_le E _ _ HE) in H.
  rewrite Forall_forall in HE. specialize (HE _ Hp). lia.
Qed.

Lemma reaches_all (E : list (loc * loc)) (fuel : nat) (s d : loc)
  (xs : list loc) :
  forallb (fun x => reaches E fuel s x && reaches E fuel x d) xs = true ->
  Forall (fun x => leads_to E s x /\ leads_to E x d) xs.
Proof.
  rewrite forallb_forall. intros H. apply Forall_forall. intros x Hx.
  apply list_elem_of_In, H, andb_true_iff in Hx as [H1 H2].
  split; by eapply reaches_sound.
Qed.

Ltac increasing := vm_compute; repeat constructor.

(** X11. The graph the query generator module declares, once loaded: its
    executors are exactly the agents and the aggregator the module built;
    every one of them is reached from the schema parser and leads to the
    documentation generator, which is the only executor without a
    successor; no edge can be walked back to its source, so there is no
    cycle; and the aggregator's predecessors are exactly the successors of
    the query generator. *)
Theorem query_workflow_graph (e : nat -> N) (t : pystr) :
  let w := loaded QueryGeneratorWorkflow.load e t in
  exists f wl qg va dg,
    globals w !! "workflow" = Some wl
    /\ heap w !! wl = Some (Workflow_obj f)
    /\ globals w !! "query_generator" = Some qg
    /\ globals w !! "validation_aggregator" = Some va
    /\ globals w !! "documentation_generator" = Some dg
    /\ executors_of f = executor_addresses_of (heap w)
    /\ Forall (fun x => leads_to (edges_of f) (wf_start f) x
                        /\ leads_to (edges_of f) x dg)
              (executors_of f)
    /\ sinks_of f = [dg]
    /\ Forall (fun p => ~ leads_to (edges_of f) (snd p) (fst p)) (edges_of f)
    /\ length (successors_of f qg) = 3%nat
    /\ predecessors_of f va = successors_of f qg.
Proof.
  intros w.
  exists {| wf_start := 1%nat;
            wf_edge_groups :=
              [SingleEdge 1 2; FanOutEdges 2 [3%nat; 4%nat; 5%nat];
               FanInEdges [3%nat; 4%nat; 5%nat] 6; SingleEdge 6 7;
               SingleEdge 7 8] |}, 9%nat, 2%nat, 6%nat, 8%nat.
  repeat match goal with
         | |- _ /\ _ => split
         | |- Forall (fun x => leads_to _ _ x /\ _) _ =>
             apply (reaches_all _ 8); by_evaluation
         | |- Forall (fun p => ~ _) _ => apply increasing_acyclic; increasing
         | |- _ = _ => by_evaluation
         end.
Qed.

(** X12. The graph the story module declares, once loaded: its executors
    are exactly the four agents the module built; every one of them is
    reached from the plot designer and leads to the story polisher, the
    only executor without a successor; no edge can be walked back to its
    source; and every executor has at most one successor and at most one
    predecessor. *)
Theorem story_workflow_graph (e : nat -> N) (t : pystr) :
  let w := loaded StoryWorkflow.load e t in
  exists f wl sp,
    globals w !! "workflow" = Some wl
    /\ heap w !! wl = Some (Workflow_obj f)
    /\ globals w !! "story_polisher" = Some sp
    /\ executors_of f = executor_addresses_of (heap w)
    /\ Forall (fun x => leads_to (edges_of f) (wf_start f) x
                        /\ leads_to (edges_of f) x sp)
              (executors_of f)
    /\ sinks_of f = [sp]
    /\ Forall (fun p => ~ leads_to (edges_of f) (snd p) (fst p)) (edges_of f)
    /\ Forall (fun x => (length (successors_of f x) <= 1)%nat
                        /\ (length (predecessors_of f x) <= 1)%nat)
              (executors_of f).
Proof.
  intros w.
  exists {| wf_start := 1%nat;
            wf_edge_groups :=
              [SingleEdge 1 2; SingleEdge 2 3; SingleEdge 3 4] |},
         5%nat, 4%nat.
  repeat match goal with
         | |- _ /\ _ => split
         | |- Forall (fun x => leads_to _ _ x /\ _) _ =>
             apply (reaches_all _ 4); by_evaluation
         | |- Forall (fun p => ~ _) _ => apply increasing_acyclic; increasing
         | |- Forall (fun x => (_ <= _)%nat /\ _) _ =>
             vm_compute; repeat constructor
         | |- _ = _ => by_evaluation
         end.
Qed.

(** ** [main] without a workflow *)



(** ** The workflow files run as scripts or imported *)






